(** * The Philips light entity: raw device values, brightness and the auto effect

    A shallow embedding of [PhilipsLight] from
    [custom_components/philips_airpurifier_coap/light.py]: the constructor,
    the [is_on] and [brightness] properties and the [async_turn_on] /
    [async_turn_off] commands, and the platform's [async_setup_entry],
    followed by the properties of the written specification that concern
    them and by further properties of the code. *)

From Stdlib Require Import ZArith Lia Ascii String.
From stdpp Require Import base option gmap strings.

Local Open Scope string_scope.
Local Open Scope Z_scope.

(** ** Python values and exceptions *)

(** The exceptions the modelled code can raise. *)
Inductive exn : Type :=
  | TypeError
  | ZeroDivisionError
  | UnboundLocalError
  | PlatformNotReady.

(** The outcome of evaluating a Python expression or statement. *)
Inductive result (A : Type) : Type :=
  | Ok (a : A)
  | Raise (e : exn).
Arguments Ok {A} a.
Arguments Raise {A} e.

(** An attribute holding [None] or an integer is an [option Z]. *)

(** Python truth value of [None] or an integer: [None] and [0] are false. *)
Definition truthy (v : option Z) : bool :=
  match v with
  | Some z => negb (z =? 0)
  | None => false
  end.

(** [int(v)]: the identity on integers, [TypeError] on [None]. *)
Definition py_int (v : option Z) : result Z :=
  match v with
  | Some z => Ok z
  | None => Raise TypeError
  end.

(** Rounding of the exact quotient [n / d] to the nearest integer, ties to
    the even one, for [d <> 0]. *)
Definition round_half_even (n d : Z) : Z :=
  let n' := if d <? 0 then - n else n in
  let d' := Z.abs d in
  let q := n' / d' in
  match (2 * (n' mod d') ?= d') with
  | Lt => q
  | Gt => q + 1
  | Eq => if Z.even q then q else q + 1
  end.

(** [round(n / d)] for integers [n] and [d]: true division raises
    [ZeroDivisionError] on a zero divisor, and [round] of the quotient
    rounds half to even.  Python forms the quotient as a correctly rounded
    double; for [|n| < 2^52] that double lies on the same side of every
    half-integer as the exact quotient, so the result is the exact
    rounding modelled here. *)
Definition py_round_div (n d : Z) : result Z :=
  if d =? 0 then Raise ZeroDivisionError else Ok (round_half_even n d).

(** ** Constants *)

(** Modelled from the spec: [SWITCH_AUTO] of [const.py], the name of the
    single selectable effect, ["auto"]. *)
Definition SWITCH_AUTO : string := "auto".

(** Modelled from the spec: [EFFECT_OFF] of the light platform, the effect
    name ["off"] to which the cached effect defaults. *)
Definition EFFECT_OFF : string := "off".

(** ** Data model *)

(** Modelled from the spec: an entry of [LIGHT_TYPES] ([const.py]), read
    with [.get], so that every field may be absent: the integers behind
    [SWITCH_ON], [SWITCH_OFF], [SWITCH_MEDIUM], [SWITCH_AUTO] and the
    boolean behind [DIMMABLE]. *)
Record LightDescription : Type := {
  d_on : option Z;
  d_off : option Z;
  d_medium : option Z;
  d_auto : option Z;
  d_dimmable : option bool
}.

Inductive ColorMode : Type := BRIGHTNESS | ONOFF.

(** The attributes of a [PhilipsLight] that the properties and commands
    read or write.  Name, icon, device class, entity category, unique id
    and feature flags are display or registration data and are left out. *)
Record PhilipsLight : Type := {
  _model : string;
  _on : option Z;
  _off : option Z;
  _medium : option Z;
  _auto : option Z;
  _dimmable : bool;
  _attr_effect_list : option (list string);
  _attr_effect : option string;
  _attr_color_mode : ColorMode;
  kind : string
}.

(** [self._attr_effect = e] *)
Definition with_effect (e : option string) (l : PhilipsLight) : PhilipsLight :=
  {| _model := _model l; _on := _on l; _off := _off l; _medium := _medium l;
     _auto := _auto l; _dimmable := _dimmable l;
     _attr_effect_list := _attr_effect_list l; _attr_effect := e;
     _attr_color_mode := _attr_color_mode l; kind := kind l |}.

(** [light.partition(sep)[0]]: the part of [light] before the first [sep]. *)
Fixpoint partition_head (sep : ascii) (light : string) : string :=
  match light with
  | EmptyString => EmptyString
  | String c rest =>
      if Ascii.eqb c sep then EmptyString else String c (partition_head sep rest)
  end.

(** [PhilipsLight.__init__].  [device_id] is the outcome of the lookup
    [self._device_status[PhilipsApi.DEVICE_ID]]: when it fails (missing key
    or no status at all) construction raises [PlatformNotReady]. *)
Definition __init__ (device_id : option string) (model light : string)
    (description : LightDescription) : result PhilipsLight :=
  let on := d_on description in
  let off := d_off description in
  let medium := d_medium description in
  let auto := d_auto description in
  let '(dimmable, medium, auto) :=
    match d_dimmable description with
    | None => (false, None, None)
    | Some b => (b, medium, auto)
    end in
  let '(color_mode, effect_list, effect) :=
    if dimmable then
      if truthy auto then (BRIGHTNESS, Some [SWITCH_AUTO], Some EFFECT_OFF)
      else (BRIGHTNESS, None, None)
    else (ONOFF, None, None) in
  match device_id with
  | None => Raise PlatformNotReady
  | Some _ =>
      Ok {| _model := model; _on := on; _off := off; _medium := medium;
            _auto := auto; _dimmable := dimmable;
            _attr_effect_list := effect_list; _attr_effect := effect;
            _attr_color_mode := color_mode;
            kind := partition_head "#"%char light |}
  end.

(** ** The world a method runs in *)

(** The entity, the coordinator's status snapshot it reads, and the
    control values handed to the client so far, oldest first.  A written
    value is [None] or an integer. *)
Record Heap : Type := {
  self : PhilipsLight;
  _device_status : gmap string Z;
  client : list (string * option Z)
}.

(** A method body: it may change the heap and ends with a value or an
    exception; what it changed before raising stays changed. *)
Definition Py (A : Type) : Type := Heap -> result A * Heap.

#[global] Instance Py_ret : MRet Py := fun A a h => (Ok a, h).

#[global] Instance Py_bind : MBind Py := fun A B f m h =>
  match m h with
  | (Ok a, h') => f a h'
  | (Raise e, h') => (Raise e, h')
  end.

Definition raise {A : Type} (e : exn) : Py A := fun h => (Raise e, h).

Definition lift {A : Type} (r : result A) : Py A := fun h => (r, h).

Definition get_self : Py PhilipsLight := fun h => (Ok (self h), h).

(** The heap after [self._attr_effect = e]. *)
Definition heap_set_effect (e : option string) (h : Heap) : Heap :=
  {| self := with_effect e (self h);
     _device_status := _device_status h; client := client h |}.

(** The heap after the client was handed [value] for [key]. *)
Definition heap_send (key : string) (value : option Z) (h : Heap) : Heap :=
  {| self := self h; _device_status := _device_status h;
     client := client h ++ [(key, value)] |}.

(** [self._attr_effect = e] *)
Definition set_attr_effect (e : option string) : Py unit := fun h =>
  (Ok tt, heap_set_effect e h).

(** [self._device_status.get(key)] *)
Definition device_status_get (key : string) : Py (option Z) := fun h =>
  (Ok (_device_status h !! key), h).

(** [await self.coordinator.client.set_control_value(key, value)]: the
    transport is outside the module; the model records the request. *)
Definition set_control_value (key : string) (value : option Z) : Py unit := fun h =>
  (Ok tt, heap_send key value h).

(** ** The properties and commands of the entity *)

(** The [is_on] property. *)
Definition is_on : Py bool :=
  self ← get_self;
  raw ← device_status_get (kind self);
  status ← lift (py_int raw);
  off ← lift (py_int (_off self));
  mret (negb (status =? off)).

(** [guard and x == int(v)], where [guard] is the truth value of the
    conjuncts to the left: [int(v)] is evaluated only when they hold. *)
Definition and_equals (guard : bool) (x : Z) (v : option Z) : Py bool :=
  if guard then y ← lift (py_int v); mret (x =? y) else mret false.

(** The [brightness] property. *)
Definition brightness : Py (option Z) :=
  self ← get_self;
  if _dimmable self then
    if truthy (_auto self)
       && bool_decide (_attr_effect self = Some SWITCH_AUTO)
    then mret None
    else
      raw ← device_status_get (kind self);
      brightness ← lift (py_int raw);
      is_auto ← and_equals (truthy (_auto self) && truthy (_medium self))
                           brightness (_auto self);
      if is_auto : bool then
        set_attr_effect (Some SWITCH_AUTO);;
        mret None
      else
        is_medium ← and_equals (truthy (_medium self)) brightness (_medium self);
        if is_medium : bool then mret (Some 128)
        else
          on ← lift (py_int (_on self));
          level ← lift (py_round_div (255 * brightness) on);
          mret (Some level)
  else mret None.

(** The keyword arguments of a turn-on call that the method looks at:
    [kwargs[ATTR_BRIGHTNESS]] and [kwargs[ATTR_EFFECT]], each possibly
    missing. *)
Record Kwargs : Type := {
  kw_brightness : option Z;
  kw_effect : option string
}.

(** [async_turn_on].  The local [value] is [None] while it is unbound and
    [Some v] once assigned; reading it unbound raises
    [UnboundLocalError]. *)
Definition async_turn_on (kwargs : Kwargs) : Py unit :=
  self ← get_self;
  value ←
    match kw_effect kwargs with
    | Some effect =>
        set_attr_effect (Some effect);;
        if String.eqb effect SWITCH_AUTO then mret (Some (_auto self))
        else mret None
    | None =>
        if _dimmable self then
          match kw_brightness kwargs with
          | Some level =>
              if truthy (_medium self) && (level <? 255)
              then mret (Some (_medium self))
              else
                on ← lift (py_int (_on self));
                v ← lift (py_round_div (on * level) 255);
                mret (Some (Some v))
          | None =>
              on ← lift (py_int (_on self));
              mret (Some (Some on))
          end
        else mret (Some (_on self))
    end;
  match value with
  | Some v => set_control_value (kind self) v
  | None => raise UnboundLocalError
  end.

(** [async_turn_off]; its keyword arguments are not looked at. *)
Definition async_turn_off : Py unit :=
  self ← get_self;
  set_attr_effect (Some EFFECT_OFF);;
  set_control_value (kind self) (_off self).

(** ** The platform driving the entity *)

(** What the platform and the coordinator do to an entity: the coordinator
    replaces the status snapshot, the platform reads a property or issues a
    command.  Each is a call of its own: an exception ends that call and
    leaves the heap as the call had changed it. *)
Inductive op : Type :=
  | Refresh (status : gmap string Z)
  | GetIsOn
  | GetBrightness
  | TurnOn (kwargs : Kwargs)
  | TurnOff.

Inductive outcome : Type :=
  | Refreshed
  | IsOn (r : result bool)
  | Level (r : result (option Z))
  | Done (r : result unit).

Definition refresh (status : gmap string Z) (h : Heap) : Heap :=
  {| self := self h; _device_status := status; client := client h |}.

Definition perform (o : op) (h : Heap) : outcome * Heap :=
  match o with
  | Refresh status => (Refreshed, refresh status h)
  | GetIsOn => let '(r, h') := is_on h in (IsOn r, h')
  | GetBrightness => let '(r, h') := brightness h in (Level r, h')
  | TurnOn kwargs => let '(r, h') := async_turn_on kwargs h in (Done r, h')
  | TurnOff => let '(r, h') := async_turn_off h in (Done r, h')
  end.

Fixpoint run (ops : list op) (h : Heap) : list outcome * Heap :=
  match ops with
  | [] => ([], h)
  | o :: rest =>
      let '(x, h') := perform o h in
      let '(xs, h'') := run rest h' in
      (x :: xs, h'')
  end.

(** A freshly constructed entity with an empty snapshot and nothing sent. *)
Definition fresh (l : PhilipsLight) : Heap :=
  {| self := l; _device_status := ∅; client := [] |}.

(** ** Concrete descriptors used in examples *)

(** [{on: 2, off: 0, medium: 1, auto: 3, dimmable: True}] *)
Definition scenario_description : LightDescription :=
  {| d_on := Some 2; d_off := Some 0; d_medium := Some 1; d_auto := Some 3;
     d_dimmable := Some true |}.

(** The entity [__init__] builds from [scenario_description]. *)
Definition scenario_light : PhilipsLight :=
  {| _model := "AC3858"; _on := Some 2; _off := Some 0; _medium := Some 1;
     _auto := Some 3; _dimmable := true;
     _attr_effect_list := Some [SWITCH_AUTO]; _attr_effect := Some EFFECT_OFF;
     _attr_color_mode := BRIGHTNESS; kind := "D0312D" |}.

(** The scenario entity with the snapshot holding [raw] under its key. *)
Definition scenario_heap (raw : Z) : Heap :=
  {| self := scenario_light; _device_status := {[ "D0312D" := raw ]};
     client := [] |}.

(** [{on: 2, off: 0, medium: 1, auto: 3, dimmable: False}]: the scenario
    descriptor with [dimmable] explicitly false. *)
Definition switch_description : LightDescription :=
  {| d_on := Some 2; d_off := Some 0; d_medium := Some 1; d_auto := Some 3;
     d_dimmable := Some false |}.

(** The entity [__init__] builds from [switch_description]. *)
Definition switch_light : PhilipsLight :=
  {| _model := "AC3858"; _on := Some 2; _off := Some 0; _medium := Some 1;
     _auto := Some 3; _dimmable := false;
     _attr_effect_list := None; _attr_effect := None;
     _attr_color_mode := ONOFF; kind := "D0312D" |}.

(** The switch entity after "auto" has become its cached effect, with the
    snapshot holding 1 under its key. *)
Definition switch_heap : Heap :=
  {| self := with_effect (Some SWITCH_AUTO) switch_light;
     _device_status := {[ "D0312D" := 1 ]}; client := [] |}.

(** [{on: 2, off: 0}]: a descriptor without a [dimmable] entry. *)
Definition plain_description : LightDescription :=
  {| d_on := Some 2; d_off := Some 0; d_medium := None; d_auto := None;
     d_dimmable := None |}.

(** [{on: 2, off: 1, medium: 3, auto: 0, dimmable: True}]: auto is
    configured, with the value [0]. *)
Definition zero_auto_light : PhilipsLight :=
  {| _model := "AC3858"; _on := Some 2; _off := Some 1; _medium := Some 3;
     _auto := Some 0; _dimmable := true;
     _attr_effect_list := None; _attr_effect := None;
     _attr_color_mode := BRIGHTNESS; kind := "D0312D" |}.

Definition zero_auto_heap : Heap :=
  {| self := zero_auto_light; _device_status := {[ "D0312D" := 0 ]};
     client := [] |}.

(** A dimmable light without medium and auto whose full-on value is [on]. *)
Definition dimmer_light (on : Z) : PhilipsLight :=
  {| _model := "AC3858"; _on := Some on; _off := Some 0; _medium := None;
     _auto := None; _dimmable := true;
     _attr_effect_list := None; _attr_effect := None;
     _attr_color_mode := BRIGHTNESS; kind := "D03105" |}.

Definition dimmer_heap (on raw : Z) : Heap :=
  {| self := dimmer_light on; _device_status := {[ "D03105" := raw ]};
     client := [] |}.

(** The scenario of the specification, as calls of the platform: the
    snapshot shows 3, then 1, then 2, with a brightness read after each;
    then the effect [auto] is selected, then brightness 10, then 255. *)
Definition scenario_ops : list op :=
  [ Refresh {[ "D0312D" := 3 ]}; GetBrightness;
    Refresh {[ "D0312D" := 1 ]}; GetBrightness;
    Refresh {[ "D0312D" := 2 ]}; GetBrightness;
    TurnOn {| kw_brightness := None; kw_effect := Some SWITCH_AUTO |};
    TurnOn {| kw_brightness := Some 10; kw_effect := None |};
    TurnOn {| kw_brightness := Some 255; kw_effect := None |} ].

(** The cached effect is one of the two values "off" and "auto". *)
Definition two_valued (h : Heap) : Prop :=
  _attr_effect (self h) = Some EFFECT_OFF
  \/ _attr_effect (self h) = Some SWITCH_AUTO.

(** A call that selects no effect other than "auto". *)
Definition selects_auto_only (o : op) : Prop :=
  match o with
  | TurnOn kwargs => kw_effect kwargs = None \/ kw_effect kwargs = Some SWITCH_AUTO
  | _ => True
  end.

(** A call that neither turns the light off nor selects an effect other
    than "auto". *)
Definition keeps_auto (o : op) : Prop :=
  match o with
  | TurnOn kwargs => kw_effect kwargs = None \/ kw_effect kwargs = Some SWITCH_AUTO
  | TurnOff => False
  | _ => True
  end.

(** The brightness reads of a run all came back as [None]. *)
Definition level_hidden (x : outcome) : Prop :=
  match x with
  | Level r => r = Ok None
  | _ => True
  end.

(** ** Platform setup *)

(** A model class as [async_setup_entry] sees it: for each class of its
    [__mro__], in order, what [getattr(cls, "AVAILABLE_LIGHTS", [])] looks
    up on that class; [None] when the class has no such attribute and the
    default [[]] is taken. *)
Definition PyClass : Type := list (option (list string)).

(** The loop over [reversed(model_class.__mro__)] that extends
    [available_lights] with what each class offers. *)
Definition available_lights (model_class : PyClass) : list string :=
  foldl (fun (acc : list string) cls => (acc ++ default [] cls)%list) []
    (reverse model_class).

(** The comprehension
    [[PhilipsLight(coordinator, name, model, light)
      for light in LIGHT_TYPES if light in available_lights]].
    [LIGHT_TYPES] is given by its items in dictionary order, so that the
    [LIGHT_TYPES[light]] of the constructor is the description paired with
    [light]; [device_id] is the outcome of the constructor's lookup in the
    coordinator's status.  A constructor that raises ends the
    comprehension. *)
Fixpoint build_lights (device_id : option string) (model : string)
    (available : list string) (LIGHT_TYPES : list (string * LightDescription))
    : result (list PhilipsLight) :=
  match LIGHT_TYPES with
  | [] => Ok []
  | (light, description) :: rest =>
      if bool_decide (light ∈ available) then
        match __init__ device_id model light description with
        | Ok entity =>
            match build_lights device_id model available rest with
            | Ok entities => Ok (entity :: entities)
            | Raise e => Raise e
            end
        | Raise e => Raise e
        end
      else build_lights device_id model available rest
  end.

(** [async_setup_entry], from the lookup of the model class on.  The result
    is the list handed to [async_add_entities], or [None] when the model is
    unsupported and nothing is added (the error is only logged). *)
Definition async_setup_entry (LIGHT_TYPES : list (string * LightDescription))
    (model_to_class : gmap string PyClass) (device_id : option string)
    (model : string) : result (option (list PhilipsLight)) :=
  match model_to_class !! model with
  | Some model_class =>
      match build_lights device_id model (available_lights model_class) LIGHT_TYPES with
      | Ok lights => Ok (Some lights)
      | Raise e => Raise e
      end
  | None => Ok None
  end.

(** A table of two lights and a class hierarchy offering the first of them
    twice and a light the table does not know. *)
Definition sample_light_types : list (string * LightDescription) :=
  [ ("D0312D#2", scenario_description); ("D03105", plain_description) ].

Definition sample_class : PyClass :=
  [ Some ["D0312D#2"]; Some ["D0312D#2"; "D03135"]; None ].

Definition sample_model_to_class : gmap string PyClass :=
  {[ "AC3858" := sample_class ]}.

(** ** Unfolding the method bodies *)

Ltac py_unfold :=
  cbv [mbind mret Py_bind Py_ret get_self lift raise set_attr_effect
       device_status_get set_control_value and_equals py_int].

(** ** Rounding on examples *)

(** [round(765 / 2) == 382], [round(255 / 2) == 128], [round(1 / 2) == 0],
    [round(-3 / 2) == -2], [round(100 / 255) == 0], [round(7 / -2) == -4]. *)
Example round_half_even_examples :
  round_half_even 765 2 = 382 /\ round_half_even 255 2 = 128
  /\ round_half_even 1 2 = 0 /\ round_half_even (-3) 2 = -2
  /\ round_half_even 100 255 = 0 /\ round_half_even 7 (-2) = -4.
Proof. repeat split. Qed.

Example py_round_div_zero : py_round_div 255 0 = Raise ZeroDivisionError.
Proof. reflexivity. Qed.

(** ** Construction *)

Lemma scenario_light_init :
  __init__ (Some "id") "AC3858" "D0312D#2" scenario_description = Ok scenario_light.
Proof. reflexivity. Qed.

Lemma switch_light_init :
  __init__ (Some "id") "AC3858" "D0312D#2" switch_description = Ok switch_light.
Proof. reflexivity. Qed.

Lemma zero_auto_light_init :
  __init__ (Some "id") "AC3858" "D0312D#2"
    {| d_on := Some 2; d_off := Some 1; d_medium := Some 3; d_auto := Some 0;
       d_dimmable := Some true |} = Ok zero_auto_light.
Proof. reflexivity. Qed.

Lemma dimmer_light_init (on : Z) :
  __init__ (Some "id") "AC3858" "D03105"
    {| d_on := Some on; d_off := Some 0; d_medium := None; d_auto := None;
       d_dimmable := Some true |} = Ok (dimmer_light on).
Proof. reflexivity. Qed.

Lemma plain_light_init :
  __init__ (Some "id") "AC3858" "D0312D" plain_description
  = Ok {| _model := "AC3858"; _on := Some 2; _off := Some 0; _medium := None;
          _auto := None; _dimmable := false; _attr_effect_list := None;
          _attr_effect := None; _attr_color_mode := ONOFF; kind := "D0312D" |}.
Proof. reflexivity. Qed.

(** Construction fails exactly when the device id cannot be read. *)
Lemma init_raises (device_id : option string) (model light : string)
    (d : LightDescription) :
  device_id = None <-> __init__ device_id model light d = Raise PlatformNotReady.
Proof.
  unfold __init__.
  destruct (d_dimmable d) as [[|]|], (truthy (d_auto d)), device_id;
    split; intros H; try reflexivity; discriminate H.
Qed.

(** ** Reading *)

(** A light whose [_dimmable] is false reports no brightness, and the read
    changes nothing. *)
Lemma brightness_dimmable_false (h : Heap) :
  _dimmable (self h) = false -> brightness h = (Ok None, h).
Proof.
  intros Hdim. unfold brightness. py_unfold. rewrite Hdim. reflexivity.
Qed.

(** A descriptor whose [dimmable] is absent or false gives an entity whose
    [_dimmable] is false. *)
Lemma init_dimmable_false (device_id : option string) (model light : string)
    (d : LightDescription) (l : PhilipsLight) :
  __init__ device_id model light d = Ok l ->
  d_dimmable d <> Some true ->
  _dimmable l = false.
Proof.
  unfold __init__. intros Hinit Hdim.
  destruct (d_dimmable d) as [[|]|], device_id; try discriminate Hinit;
    try congruence; injection Hinit as <-; reflexivity.
Qed.

(** C8: on the entity built from a descriptor whose [dimmable] is false or
    absent, the brightness read returns [None] whatever the snapshot holds
    (even nothing) and whatever value the cached effect has taken, and the
    read changes nothing. *)
Theorem brightness_not_dimmable (device_id : option string) (model light : string)
    (d : LightDescription) (l : PhilipsLight) (e : option string) (h : Heap) :
  __init__ device_id model light d = Ok l ->
  d_dimmable d <> Some true ->
  self h = with_effect e l ->
  brightness h = (Ok None, h).
Proof.
  intros Hinit Hdim Hself. apply brightness_dimmable_false.
  rewrite Hself. exact (init_dimmable_false _ _ _ _ _ Hinit Hdim).
Qed.

Lemma brightness_not_dimmable_witness :
  __init__ (Some "id") "AC3858" "D0312D#2" switch_description = Ok switch_light
  /\ d_dimmable switch_description <> Some true
  /\ self switch_heap = with_effect (Some SWITCH_AUTO) switch_light
  /\ brightness switch_heap = (Ok None, switch_heap).
Proof.
  split; [reflexivity | split; [discriminate | split; [reflexivity |]]].
  apply (brightness_not_dimmable (Some "id") "AC3858" "D0312D#2"
           switch_description switch_light (Some SWITCH_AUTO));
    [reflexivity | discriminate | reflexivity].
Defined.

(** C7: with the snapshot holding the integer [v] under the entity's key,
    [is_on] returns a boolean that is true exactly when [v] differs from the
    off value; nothing else of the entity (cached effect, on, medium, auto,
    dimmable) enters the answer, and the heap is unchanged. *)
Theorem is_on_iff_not_off (h : Heap) (v off : Z) :
  _device_status h !! kind (self h) = Some v ->
  _off (self h) = Some off ->
  exists b : bool, is_on h = (Ok b, h) /\ (b = true <-> v <> off).
Proof.
  intros Hraw Hoff. exists (negb (v =? off)). split.
  - unfold is_on. py_unfold. rewrite Hraw, Hoff. reflexivity.
  - rewrite negb_true_iff, Z.eqb_neq. reflexivity.
Qed.

Lemma is_on_iff_not_off_witness :
  _device_status (scenario_heap 3) !! kind (self (scenario_heap 3)) = Some 3
  /\ _off (self (scenario_heap 3)) = Some 0
  /\ exists b : bool,
       is_on (scenario_heap 3) = (Ok b, scenario_heap 3) /\ (b = true <-> 3 <> 0).
Proof.
  split; [reflexivity | split; [reflexivity |]].
  apply (is_on_iff_not_off (scenario_heap 3) 3 0); reflexivity.
Defined.

Lemma truthy_nonzero (z : Z) : z <> 0 -> truthy (Some z) = true.
Proof. intros Hz. simpl. apply negb_true_iff, Z.eqb_neq, Hz. Qed.

Lemma effect_is_auto_false (e : option string) :
  e <> Some SWITCH_AUTO -> bool_decide (e = Some SWITCH_AUTO) = false.
Proof. intros He. apply bool_decide_eq_false, He. Qed.

(** C5, as the code has it: on a dimmable light whose auto and medium
    values are both present and non-zero (the code asks for their truth
    value), with a cached effect other than "auto" and the snapshot holding
    the auto value, the brightness read returns [None] and leaves the cached
    effect at "auto"; nothing else of the heap changes. *)
Theorem brightness_detects_auto (h : Heap) (auto medium : Z) :
  _dimmable (self h) = true ->
  _auto (self h) = Some auto -> auto <> 0 ->
  _medium (self h) = Some medium -> medium <> 0 ->
  _attr_effect (self h) <> Some SWITCH_AUTO ->
  _device_status h !! kind (self h) = Some auto ->
  brightness h = (Ok None, heap_set_effect (Some SWITCH_AUTO) h).
Proof.
  intros Hdim Hauto Hnz Hmed Hmnz Heff Hraw.
  unfold brightness. py_unfold.
  rewrite Hdim, Hauto, Hmed, (effect_is_auto_false _ Heff).
  rewrite !truthy_nonzero by assumption. cbn [andb].
  rewrite Hraw, Z.eqb_refl. reflexivity.
Qed.

Lemma brightness_detects_auto_witness :
  _dimmable (self (scenario_heap 3)) = true
  /\ _auto (self (scenario_heap 3)) = Some 3 /\ 3 <> 0
  /\ _medium (self (scenario_heap 3)) = Some 1 /\ 1 <> 0
  /\ _attr_effect (self (scenario_heap 3)) <> Some SWITCH_AUTO
  /\ _device_status (scenario_heap 3) !! kind (self (scenario_heap 3)) = Some 3
  /\ brightness (scenario_heap 3)
     = (Ok None, heap_set_effect (Some SWITCH_AUTO) (scenario_heap 3)).
Proof.
  repeat (split; [first [reflexivity | discriminate | lia] |]).
  apply (brightness_detects_auto (scenario_heap 3) 3 1);
    first [reflexivity | discriminate | lia].
Defined.

(** C5 as stated fails when a configured value is [0]: with auto configured
    as 0 and medium as 3 on a dimmable light, cached effect not "auto", and
    the snapshot holding the auto value 0, the read returns brightness 0,
    not [None], and the cached effect is not set to "auto". *)
Lemma brightness_zero_auto_not_detected :
  _dimmable (self zero_auto_heap) = true
  /\ _auto (self zero_auto_heap) = Some 0
  /\ _medium (self zero_auto_heap) = Some 3
  /\ _attr_effect (self zero_auto_heap) <> Some SWITCH_AUTO
  /\ _device_status zero_auto_heap !! kind (self zero_auto_heap)
     = _auto (self zero_auto_heap)
  /\ brightness zero_auto_heap = (Ok (Some 0), zero_auto_heap)
  /\ brightness zero_auto_heap
     <> (Ok None, heap_set_effect (Some SWITCH_AUTO) zero_auto_heap).
Proof.
  repeat (split; [first [reflexivity | discriminate] |]).
  discriminate.
Qed.

(** C3, as the code has it, on the scenario entity starting with cached
    effect "off": the read at raw 3 returns [None] and sets the cached
    effect to "auto"; from then on the cached effect hides the brightness,
    so the reads at raw 1 and raw 2 return [None] as well; selecting the
    effect "auto" hands 3 to the client, brightness 10 hands 1, brightness
    255 hands 2, and the cached effect ends as "auto".  With the cached
    effect still "off", the reads at raw 1 and raw 2 return 128 and 255. *)
Theorem scenario_run :
  _attr_effect scenario_light = Some EFFECT_OFF
  /\ fst (run scenario_ops (fresh scenario_light))
     = [ Refreshed; Level (Ok None); Refreshed; Level (Ok None);
         Refreshed; Level (Ok None); Done (Ok tt); Done (Ok tt); Done (Ok tt) ]
  /\ snd (run (take 2 scenario_ops) (fresh scenario_light))
     = heap_set_effect (Some SWITCH_AUTO) (scenario_heap 3)
  /\ client (snd (run scenario_ops (fresh scenario_light)))
     = [ ("D0312D", Some 3); ("D0312D", Some 1); ("D0312D", Some 2) ]
  /\ _attr_effect (self (snd (run scenario_ops (fresh scenario_light))))
     = Some SWITCH_AUTO
  /\ brightness (scenario_heap 1) = (Ok (Some 128), scenario_heap 1)
  /\ brightness (scenario_heap 2) = (Ok (Some 255), scenario_heap 2).
Proof. repeat split; vm_compute; reflexivity. Qed.

(** C3 as stated fails at its second read: after the read at raw 3 has set
    the cached effect to "auto", the read at raw 1 returns [None], not
    128. *)
Lemma scenario_second_read_hidden :
  fst (run (take 4 scenario_ops) (fresh scenario_light))
  = [ Refreshed; Level (Ok None); Refreshed; Level (Ok None) ]
  /\ fst (run (take 4 scenario_ops) (fresh scenario_light))
     <> [ Refreshed; Level (Ok None); Refreshed; Level (Ok (Some 128)) ].
Proof. split; [vm_compute; reflexivity | vm_compute; discriminate]. Qed.

(** ** Commands *)

(** C10: a turn-on that carries the effect "auto" together with a
    brightness stores "auto" as the cached effect and hands the client the
    entity's auto value, as it is: [None] when there is none.  The
    requested brightness appears nowhere in the result. *)
Theorem turn_on_auto_ignores_brightness (h : Heap) (level : Z) :
  async_turn_on {| kw_brightness := Some level; kw_effect := Some SWITCH_AUTO |} h
  = (Ok tt,
     heap_send (kind (self h)) (_auto (self h))
       (heap_set_effect (Some SWITCH_AUTO) h)).
Proof. reflexivity. Qed.

(** C9: a turn-on whose effect argument is not "auto" ends with
    [UnboundLocalError]; the client has been handed nothing, yet the cached
    effect is already the given string.  A brightness argument, present or
    not, makes no difference. *)
Theorem turn_on_other_effect_unbound (h : Heap) (effect : string)
    (level : option Z) :
  effect <> SWITCH_AUTO ->
  async_turn_on {| kw_brightness := level; kw_effect := Some effect |} h
  = (Raise UnboundLocalError, heap_set_effect (Some effect) h)
  /\ client (heap_set_effect (Some effect) h) = client h
  /\ _attr_effect (self (heap_set_effect (Some effect) h)) = Some effect.
Proof.
  intros Hne. split; [| split; reflexivity].
  unfold async_turn_on. py_unfold. cbn [kw_effect].
  apply String.eqb_neq in Hne. rewrite Hne. reflexivity.
Qed.

Lemma turn_on_other_effect_unbound_witness :
  "rainbow" <> SWITCH_AUTO
  /\ async_turn_on {| kw_brightness := Some 200; kw_effect := Some "rainbow" |}
       (scenario_heap 2)
     = (Raise UnboundLocalError, heap_set_effect (Some "rainbow") (scenario_heap 2))
  /\ client (heap_set_effect (Some "rainbow") (scenario_heap 2))
     = client (scenario_heap 2)
  /\ _attr_effect (self (heap_set_effect (Some "rainbow") (scenario_heap 2)))
     = Some "rainbow".
Proof.
  split; [discriminate |].
  apply (turn_on_other_effect_unbound (scenario_heap 2) "rainbow" (Some 200)).
  discriminate.
Defined.

(** C2 at the effect "off" on the scenario entity: instead of handing the
    off value 0 to the client, the call raises [UnboundLocalError] and the
    client is handed nothing. *)
Theorem turn_on_effect_off_raises :
  async_turn_on {| kw_brightness := None; kw_effect := Some EFFECT_OFF |}
    (scenario_heap 2)
  = (Raise UnboundLocalError, heap_set_effect (Some EFFECT_OFF) (scenario_heap 2))
  /\ client (heap_set_effect (Some EFFECT_OFF) (scenario_heap 2)) = [].
Proof. split; reflexivity. Qed.

(** Turning off stores "off" as the cached effect and hands the client the
    off value. *)
Lemma turn_off_sends_off (h : Heap) :
  async_turn_off h
  = (Ok tt,
     heap_send (kind (self h)) (_off (self h))
       (heap_set_effect (Some EFFECT_OFF) h)).
Proof. reflexivity. Qed.

(** ** Construction of a light that is not dimmable *)

(** The commands and reads never change the descriptor fields of the
    entity. *)
Lemma with_effect_fields (e : option string) (l : PhilipsLight) :
  _on (with_effect e l) = _on l /\ _off (with_effect e l) = _off l
  /\ _medium (with_effect e l) = _medium l /\ _auto (with_effect e l) = _auto l
  /\ _dimmable (with_effect e l) = _dimmable l /\ kind (with_effect e l) = kind l.
Proof. repeat split. Qed.

(** C1, as the code has it.  A descriptor without a [dimmable] entry gives
    an entity with [_dimmable] false and [_medium] and [_auto] both [None];
    one with [dimmable] explicitly false gives [_dimmable] false and keeps
    the configured [_medium] and [_auto].  In both cases, whatever the
    cached effect has become: a brightness read returns [None] and changes
    nothing; a turn-on without effect hands the client the on value; and a
    turn-on with the effect "auto" hands the client the entity's [_auto]
    ([None] in the first case, the configured value in the second). *)
Theorem init_not_dimmable (device_id : option string) (model light : string)
    (d : LightDescription) (l : PhilipsLight) :
  __init__ device_id model light d = Ok l ->
  d_dimmable d <> Some true ->
  _dimmable l = false
  /\ (d_dimmable d = None -> _medium l = None /\ _auto l = None)
  /\ (d_dimmable d = Some false -> _medium l = d_medium d /\ _auto l = d_auto d)
  /\ forall (h : Heap) (e : option string), self h = with_effect e l ->
       brightness h = (Ok None, h)
       /\ (forall level : option Z,
             async_turn_on {| kw_brightness := level; kw_effect := None |} h
             = (Ok tt, heap_send (kind l) (_on l) h))
       /\ (forall level : option Z,
             async_turn_on {| kw_brightness := level; kw_effect := Some SWITCH_AUTO |} h
             = (Ok tt,
                heap_send (kind l) (_auto l) (heap_set_effect (Some SWITCH_AUTO) h))).
Proof.
  intros Hinit Hdim.
  pose proof (init_dimmable_false _ _ _ _ _ Hinit Hdim) as Hfalse.
  split; [exact Hfalse |]. split; [| split].
  - intros Hnone. unfold __init__ in Hinit. rewrite Hnone in Hinit.
    destruct device_id; [| discriminate Hinit].
    injection Hinit as <-. split; reflexivity.
  - intros Hsome. unfold __init__ in Hinit. rewrite Hsome in Hinit.
    destruct device_id; [| discriminate Hinit].
    injection Hinit as <-. split; reflexivity.
  - intros h e Hself. split; [| split].
    + apply brightness_dimmable_false. rewrite Hself. exact Hfalse.
    + intros level. unfold async_turn_on. py_unfold. cbn [kw_effect].
      rewrite Hself. cbn [with_effect _dimmable _on kind]. rewrite Hfalse.
      reflexivity.
    + intros level. unfold async_turn_on. py_unfold. cbn [kw_effect].
      rewrite Hself. reflexivity.
Qed.

Lemma init_not_dimmable_witness :
  __init__ (Some "id") "AC3858" "D0312D#2" switch_description = Ok switch_light
  /\ d_dimmable switch_description <> Some true
  /\ _dimmable switch_light = false
  /\ (d_dimmable switch_description = None ->
      _medium switch_light = None /\ _auto switch_light = None)
  /\ (d_dimmable switch_description = Some false ->
      _medium switch_light = d_medium switch_description
      /\ _auto switch_light = d_auto switch_description)
  /\ forall (h : Heap) (e : option string), self h = with_effect e switch_light ->
       brightness h = (Ok None, h)
       /\ (forall level : option Z,
             async_turn_on {| kw_brightness := level; kw_effect := None |} h
             = (Ok tt, heap_send (kind switch_light) (_on switch_light) h))
       /\ (forall level : option Z,
             async_turn_on {| kw_brightness := level; kw_effect := Some SWITCH_AUTO |} h
             = (Ok tt,
                heap_send (kind switch_light) (_auto switch_light)
                  (heap_set_effect (Some SWITCH_AUTO) h))).
Proof.
  split; [reflexivity | split; [discriminate |]].
  apply (init_not_dimmable (Some "id") "AC3858" "D0312D#2" switch_description
           switch_light); [reflexivity | discriminate].
Defined.

(** C1 as stated fails for [dimmable] explicitly false: the scenario
    descriptor with [dimmable: False] gives an entity whose [_medium] and
    [_auto] are still 1 and 3, and a turn-on with the effect "auto" takes
    the auto path and hands the client 3. *)
Lemma init_explicit_false_keeps_auto :
  d_dimmable switch_description = Some false
  /\ __init__ (Some "id") "AC3858" "D0312D#2" switch_description = Ok switch_light
  /\ _medium switch_light = Some 1
  /\ _auto switch_light = Some 3
  /\ _auto switch_light <> None
  /\ client (snd (async_turn_on {| kw_brightness := None; kw_effect := Some SWITCH_AUTO |}
                    (fresh switch_light)))
     = [ ("D0312D", Some 3) ].
Proof. repeat (split; [first [reflexivity | discriminate] |]). reflexivity. Qed.

(** ** The cached effect over a run *)

(** A brightness read leaves the cached effect alone or sets it to
    "auto". *)
Lemma brightness_effect (h : Heap) :
  _attr_effect (self (snd (brightness h))) = _attr_effect (self h)
  \/ _attr_effect (self (snd (brightness h))) = Some SWITCH_AUTO.
Proof.
  unfold brightness. py_unfold. unfold py_round_div.
  repeat case_match; simplify_eq; cbn; auto.
Qed.

Lemma is_on_heap (h : Heap) : snd (is_on h) = h.
Proof.
  unfold is_on. py_unfold. repeat case_match; simplify_eq; reflexivity.
Qed.

(** A turn-on without effect argument leaves the cached effect alone. *)
Lemma turn_on_no_effect (h : Heap) (level : option Z) :
  _attr_effect (self (snd (async_turn_on
      {| kw_brightness := level; kw_effect := None |} h)))
  = _attr_effect (self h).
Proof.
  unfold async_turn_on. py_unfold. unfold py_round_div. cbn [kw_effect kw_brightness].
  repeat case_match; simplify_eq; reflexivity.
Qed.

(** X10: as long as no call selects an effect other than "auto", a cached
    effect that is "off" or "auto" stays so over any run of snapshot
    refreshes, reads, turn-ons and turn-offs. *)
Lemma run_two_valued (ops : list op) (h : Heap) :
  Forall selects_auto_only ops -> two_valued h -> two_valued (snd (run ops h)).
Proof.
  intros Hops. revert h.
  induction Hops as [| o rest Ho _ IH]; intros h Hh; [exact Hh |].
  cbn [run].
  destruct (perform o h) as [x h'] eqn:Hstep.
  specialize (IH h').
  destruct (run rest h') as [xs h''] eqn:Hrest. cbn [snd] in *.
  apply IH. clear IH Hrest.
  destruct o as [status | | | [level effect] |]; cbn [perform] in Hstep.
  - injection Hstep as _ <-. exact Hh.
  - pose proof (is_on_heap h) as Hk.
    destruct (is_on h) as [r k]. injection Hstep as _ <-.
    cbn [snd] in Hk. subst k. exact Hh.
  - pose proof (brightness_effect h) as Hk.
    destruct (brightness h) as [r k]. injection Hstep as _ <-.
    cbn [snd] in Hk. unfold two_valued in *.
    destruct Hk as [-> | ->]; auto.
  - cbn [selects_auto_only kw_effect] in Ho.
    destruct Ho as [-> | ->].
    + pose proof (turn_on_no_effect h level) as Hk.
      destruct (async_turn_on _ h) as [r k]. injection Hstep as _ <-.
      cbn [snd] in Hk. unfold two_valued in *. rewrite Hk. exact Hh.
    + injection Hstep as _ <-. right. reflexivity.
  - injection Hstep as _ <-. left. reflexivity.
Qed.

(** C6 at a single call on the scenario entity, whose cached effect starts
    as "off": a turn-on with the effect "rainbow" raises
    [UnboundLocalError] and leaves "rainbow" as the cached effect, which is
    neither "off" nor "auto". *)
Theorem effect_rainbow_stays :
  two_valued (fresh scenario_light)
  /\ run [ TurnOn {| kw_brightness := None; kw_effect := Some "rainbow" |} ]
       (fresh scenario_light)
     = ([ Done (Raise UnboundLocalError) ],
        heap_set_effect (Some "rainbow") (fresh scenario_light))
  /\ ~ two_valued (heap_set_effect (Some "rainbow") (fresh scenario_light)).
Proof.
  split; [left; reflexivity |]. split; [reflexivity |].
  intros [H | H]; discriminate H.
Qed.

(** ** Rounding and the brightness round trip *)

(** The rounded quotient is within half a unit of the exact one. *)
Lemma round_half_even_near (n d : Z) :
  d <> 0 -> 2 * Z.abs (d * round_half_even n d - n) <= Z.abs d.
Proof.
  intros Hd. unfold round_half_even.
  set (n' := if d <? 0 then - n else n).
  assert (Hpos : 0 < Z.abs d) by lia.
  pose proof (Z.div_mod n' (Z.abs d) ltac:(lia)) as Hdiv.
  pose proof (Z.mod_pos_bound n' (Z.abs d) Hpos) as Hmod.
  assert (Hsign : forall x, Z.abs (d * x - n) = Z.abs (Z.abs d * x - n')).
  { intros x. subst n'. destruct (Z.ltb_spec d 0); nia. }
  rewrite Hsign.
  destruct (Z.compare_spec (2 * (n' mod Z.abs d)) (Z.abs d)) as [Heq | Hlt | Hgt].
  - destruct (Z.even (n' / Z.abs d)); nia.
  - nia.
  - nia.
Qed.

(** C4, as the code has it: on a dimmable light without medium and auto
    whose on value [on] satisfies [85 <= |on| < 2^44], a turn-on with
    brightness [level] in [0, 255] hands the client a value [w], and a
    brightness read with the snapshot showing [w] returns a level that
    differs from [level] by at most 1. *)
Theorem brightness_round_trip (h : Heap) (on level : Z) :
  _dimmable (self h) = true ->
  _medium (self h) = None ->
  _auto (self h) = None ->
  _on (self h) = Some on ->
  85 <= Z.abs on < 2 ^ 44 ->
  0 <= level <= 255 ->
  exists w r : Z,
    async_turn_on {| kw_brightness := Some level; kw_effect := None |} h
    = (Ok tt, heap_send (kind (self h)) (Some w) h)
    /\ (forall h' : Heap,
          self h' = self h ->
          _device_status h' !! kind (self h) = Some w ->
          brightness h' = (Ok (Some r), h'))
    /\ Z.abs (r - level) <= 1.
Proof.
  intros Hdim Hmed Hauto Hon Hrange Hlevel.
  assert (Hnz : on <> 0) by lia.
  exists (round_half_even (on * level) 255).
  exists (round_half_even (255 * round_half_even (on * level) 255) on).
  split; [| split].
  - unfold async_turn_on. py_unfold. cbn [kw_effect kw_brightness].
    rewrite Hdim, Hmed, Hon. reflexivity.
  - intros h' Hself Hraw.
    unfold brightness. py_unfold. rewrite Hself, Hdim, Hauto, Hmed, Hon.
    cbn [truthy andb]. rewrite Hraw.
    unfold py_round_div. apply Z.eqb_neq in Hnz. rewrite Hnz. reflexivity.
  - pose proof (round_half_even_near (on * level) 255 ltac:(lia)) as Hw.
    set (w := round_half_even (on * level) 255) in *.
    pose proof (round_half_even_near (255 * w) on Hnz) as Hr.
    set (r := round_half_even (255 * w) on) in *.
    assert (Hsplit : on * (r - level) = (on * r - 255 * w) + (255 * w - on * level))
      by ring.
    destruct (Z.le_gt_cases (Z.abs (r - level)) 1) as [Hok | Hbad]; [exact Hok |].
    exfalso.
    assert (Hprod : 2 * Z.abs on <= Z.abs (on * (r - level))).
    { rewrite Z.abs_mul. nia. }
    rewrite Hsplit in Hprod. lia.
Qed.

Lemma brightness_round_trip_witness :
  _dimmable (self (dimmer_heap 100 0)) = true
  /\ _medium (self (dimmer_heap 100 0)) = None
  /\ _auto (self (dimmer_heap 100 0)) = None
  /\ _on (self (dimmer_heap 100 0)) = Some 100
  /\ 85 <= Z.abs 100 < 2 ^ 44
  /\ 0 <= 127 <= 255
  /\ exists w r : Z,
       async_turn_on {| kw_brightness := Some 127; kw_effect := None |}
         (dimmer_heap 100 0)
       = (Ok tt, heap_send (kind (self (dimmer_heap 100 0))) (Some w) (dimmer_heap 100 0))
       /\ (forall h' : Heap,
             self h' = self (dimmer_heap 100 0) ->
             _device_status h' !! kind (self (dimmer_heap 100 0)) = Some w ->
             brightness h' = (Ok (Some r), h'))
       /\ Z.abs (r - 127) <= 1.
Proof.
  repeat (split; [first [reflexivity | lia] |]).
  apply (brightness_round_trip (dimmer_heap 100 0) 100 127);
    first [reflexivity | lia].
Defined.

(** C4 as stated fails for a small on value: with on value 1, brightness
    100 is written as 0, and 0 reads back as brightness 0, which is 100
    away from the request. *)
Lemma brightness_round_trip_on_one :
  _dimmable (dimmer_light 1) = true
  /\ _medium (dimmer_light 1) = None
  /\ _auto (dimmer_light 1) = None
  /\ _on (dimmer_light 1) = Some 1
  /\ async_turn_on {| kw_brightness := Some 100; kw_effect := None |} (dimmer_heap 1 0)
     = (Ok tt, heap_send "D03105" (Some 0) (dimmer_heap 1 0))
  /\ brightness (dimmer_heap 1 0) = (Ok (Some 0), dimmer_heap 1 0)
  /\ ~ Z.abs (0 - 100) <= 1.
Proof.
  repeat (split; [reflexivity |]). lia.
Qed.

(** ** Platform setup: which lights are built *)

Lemma foldl_extend_elem (l : string) (classes : list (option (list string)))
    (acc : list string) :
  l ∈ foldl (fun (acc : list string) cls => (acc ++ default [] cls)%list) acc classes
  <-> l ∈ acc \/ exists lights, Some lights ∈ classes /\ l ∈ lights.
Proof.
  revert acc. induction classes as [| cls classes IH]; intros acc; cbn [foldl].
  - split; [auto |]. intros [H | (lights & H & _)]; [exact H |].
    apply elem_of_nil in H. contradiction.
  - rewrite IH, elem_of_app. split.
    + intros [[H | H] | (lights & Hin & Hl)].
      * left. exact H.
      * right. destruct cls as [lights |]; cbn in H.
        -- exists lights. split; [apply elem_of_cons; left; reflexivity | exact H].
        -- apply elem_of_nil in H. contradiction.
      * right. exists lights. split; [apply elem_of_cons; right; exact Hin | exact Hl].
    + intros [H | (lights & Hin & Hl)]; [left; left; exact H |].
      apply elem_of_cons in Hin. destruct Hin as [<- | Hin].
      * left. right. exact Hl.
      * right. exists lights. split; assumption.
Qed.

(** X1: a light key is among the available lights exactly when some class
    of the model's [__mro__] offers it; the order of the classes and
    repeated offers make no difference. *)
Theorem available_lights_elem (model_class : PyClass) (l : string) :
  l ∈ available_lights model_class
  <-> exists lights, Some lights ∈ model_class /\ l ∈ lights.
Proof.
  unfold available_lights. rewrite foldl_extend_elem. split.
  - intros [H | (lights & Hin & Hl)].
    + apply elem_of_nil in H. contradiction.
    + exists lights. split; [apply elem_of_reverse, Hin | exact Hl].
  - intros (lights & Hin & Hl). right. exists lights.
    split; [apply elem_of_reverse, Hin | exact Hl].
Qed.

(** With the device id readable the constructor succeeds. *)
Lemma init_with_device_id (device_id model light : string) (d : LightDescription) :
  exists entity, __init__ (Some device_id) model light d = Ok entity.
Proof.
  unfold __init__.
  destruct (d_dimmable d) as [[|]|], (truthy (d_auto d)); eexists; reflexivity.
Qed.

(** With the device id readable, every constructor of the comprehension
    succeeds. *)
Lemma build_lights_ok (device_id model : string) (available : list string)
    (LIGHT_TYPES : list (string * LightDescription)) :
  exists lights,
    build_lights (Some device_id) model available LIGHT_TYPES = Ok lights
    /\ Forall2 (fun entity item =>
                  __init__ (Some device_id) model (fst item) (snd item) = Ok entity)
         lights (filter (fun item => fst item ∈ available) LIGHT_TYPES).
Proof.
  induction LIGHT_TYPES as [| [light d] rest (lights & Hrest & Hall)].
  - exists []. split; [reflexivity | constructor].
  - cbn [build_lights]. rewrite filter_cons. cbn [fst].
    destruct (decide (light ∈ available)) as [Hin | Hout].
    + rewrite bool_decide_eq_true_2 by exact Hin.
      destruct (__init__ (Some device_id) model light d) as [entity | e] eqn:Hinit.
      * rewrite Hrest. exists (entity :: lights).
        split; [reflexivity | constructor; [exact Hinit | exact Hall]].
      * destruct (init_with_device_id device_id model light d) as [entity Hok].
        rewrite Hok in Hinit. discriminate Hinit.
    + rewrite bool_decide_eq_false_2 by exact Hout.
      exists lights. split; assumption.
Qed.

(** X3: for a supported model whose coordinator shows a device id, setup
    raises nothing and adds one entity per entry of [LIGHT_TYPES] whose key
    is available, in the order of [LIGHT_TYPES], each built by the
    constructor from that entry; available keys that [LIGHT_TYPES] does not
    know add nothing. *)
Theorem setup_builds_in_order (LIGHT_TYPES : list (string * LightDescription))
    (model_to_class : gmap string PyClass) (device_id model : string)
    (model_class : PyClass) :
  model_to_class !! model = Some model_class ->
  exists lights,
    async_setup_entry LIGHT_TYPES model_to_class (Some device_id) model
    = Ok (Some lights)
    /\ Forall2 (fun entity item =>
                  __init__ (Some device_id) model (fst item) (snd item) = Ok entity)
         lights
         (filter (fun item => fst item ∈ available_lights model_class) LIGHT_TYPES).
Proof.
  intros Hclass. unfold async_setup_entry. rewrite Hclass.
  destruct (build_lights_ok device_id model (available_lights model_class) LIGHT_TYPES)
    as (lights & Hbuild & Hall).
  rewrite Hbuild. exists lights. split; [reflexivity | exact Hall].
Qed.

Lemma setup_builds_in_order_witness :
  sample_model_to_class !! "AC3858" = Some sample_class
  /\ exists lights,
       async_setup_entry sample_light_types sample_model_to_class (Some "id") "AC3858"
       = Ok (Some lights)
       /\ Forall2 (fun entity item =>
                     __init__ (Some "id") "AC3858" (fst item) (snd item) = Ok entity)
            lights
            (filter (fun item => fst item ∈ available_lights sample_class)
               sample_light_types).
Proof.
  split; [reflexivity |].
  apply (setup_builds_in_order sample_light_types sample_model_to_class
           "id" "AC3858" sample_class).
  reflexivity.
Defined.

(** On the sample tables exactly the scenario light is built. *)
Example setup_sample :
  async_setup_entry sample_light_types sample_model_to_class (Some "id") "AC3858"
  = Ok (Some [scenario_light]).
Proof. vm_compute. reflexivity. Qed.

(** X2: setup returns without raising and without calling
    [async_add_entities] exactly when the model is missing from
    [model_to_class]; a supported model always leads to a call (possibly
    with an empty list) or to an exception. *)
Theorem setup_unsupported_iff (LIGHT_TYPES : list (string * LightDescription))
    (model_to_class : gmap string PyClass) (device_id : option string)
    (model : string) :
  async_setup_entry LIGHT_TYPES model_to_class device_id model = Ok None
  <-> model_to_class !! model = None.
Proof.
  unfold async_setup_entry.
  destruct (model_to_class !! model) as [model_class |].
  - destruct (build_lights _ _ _ _); split; intros H; discriminate H.
  - split; reflexivity.
Qed.

Lemma build_lights_no_id (model : string) (available : list string)
    (LIGHT_TYPES : list (string * LightDescription)) :
  (Exists (fun item => fst item ∈ available) LIGHT_TYPES
   /\ build_lights None model available LIGHT_TYPES = Raise PlatformNotReady)
  \/ (Forall (fun item => fst item ∉ available) LIGHT_TYPES
      /\ build_lights None model available LIGHT_TYPES = Ok []).
Proof.
  induction LIGHT_TYPES as [| [light d] rest IH].
  - right. split; [constructor | reflexivity].
  - cbn [build_lights].
    destruct (decide (light ∈ available)) as [Hin | Hout].
    + rewrite bool_decide_eq_true_2 by exact Hin. left. split.
      * apply Exists_cons_hd. exact Hin.
      * rewrite (proj1 (init_raises None model light d) eq_refl). reflexivity.
    + rewrite bool_decide_eq_false_2 by exact Hout.
      destruct IH as [[Hex Hr] | [Hall Hr]].
      * left. split; [apply Exists_cons_tl, Hex | exact Hr].
      * right. split; [constructor; [exact Hout | exact Hall] | exact Hr].
Qed.

(** X4: when the coordinator's status shows no device id, setup of a
    supported model raises [PlatformNotReady] (and adds nothing) exactly
    when some key of [LIGHT_TYPES] is available; when none is, it adds the
    empty list without raising. *)
Theorem setup_without_device_id (LIGHT_TYPES : list (string * LightDescription))
    (model_to_class : gmap string PyClass) (model : string)
    (model_class : PyClass) :
  model_to_class !! model = Some model_class ->
  (async_setup_entry LIGHT_TYPES model_to_class None model = Raise PlatformNotReady
   <-> Exists (fun item => fst item ∈ available_lights model_class) LIGHT_TYPES)
  /\ (async_setup_entry LIGHT_TYPES model_to_class None model = Ok (Some [])
      <-> Forall (fun item => fst item ∉ available_lights model_class) LIGHT_TYPES).
Proof.
  intros Hclass. unfold async_setup_entry. rewrite Hclass.
  destruct (build_lights_no_id model (available_lights model_class) LIGHT_TYPES)
    as [[Hex ->] | [Hall ->]].
  - split; split; intros H; try reflexivity; try exact Hex; try discriminate H.
    apply Exists_exists in Hex. destruct Hex as (item & Hin & Hav).
    rewrite Forall_forall in H. exfalso. exact (H item Hin Hav).
  - split; split; intros H; try reflexivity; try exact Hall; try discriminate H.
    apply Exists_exists in H. destruct H as (item & Hin & Hav).
    rewrite Forall_forall in Hall. exfalso. exact (Hall item Hin Hav).
Qed.

Lemma setup_without_device_id_witness :
  sample_model_to_class !! "AC3858" = Some sample_class
  /\ (async_setup_entry sample_light_types sample_model_to_class None "AC3858"
      = Raise PlatformNotReady
      <-> Exists (fun item => fst item ∈ available_lights sample_class)
            sample_light_types)
  /\ (async_setup_entry sample_light_types sample_model_to_class None "AC3858"
      = Ok (Some [])
      <-> Forall (fun item => fst item ∉ available_lights sample_class)
            sample_light_types).
Proof.
  split; [reflexivity |].
  apply (setup_without_device_id sample_light_types sample_model_to_class
           "AC3858" sample_class).
  reflexivity.
Defined.

(** ** The control key of an entity *)

Lemma partition_head_split (sep : ascii) (light : string) :
  light = partition_head sep light
  \/ exists rest, light = (partition_head sep light ++ String sep rest)%string.
Proof.
  induction light as [| c light IH]; cbn [partition_head]; [left; reflexivity |].
  destruct (Ascii.eqb_spec c sep) as [-> | Hne].
  - right. exists light. reflexivity.
  - destruct IH as [IH | [rest IH]].
    + left. f_equal. exact IH.
    + right. exists rest.
      change (String c light
              = String c (partition_head sep light ++ String sep rest)%string).
      f_equal. exact IH.
Qed.

Lemma partition_head_app (sep : ascii) (light suffix : string) :
  partition_head sep (partition_head sep light ++ String sep suffix)%string
  = partition_head sep light.
Proof.
  induction light as [| c light IH]; cbn [partition_head].
  - simpl. rewrite Ascii.eqb_refl. reflexivity.
  - destruct (Ascii.eqb_spec c sep) as [-> | Hne].
    + simpl. rewrite Ascii.eqb_refl. reflexivity.
    + simpl. apply Ascii.eqb_neq in Hne. rewrite Hne, IH. reflexivity.
Qed.

(** X5: the control key [kind] of a constructed entity is the part of its
    light key before the first ["#"]: the light key is the control key,
    either as it is or followed by ["#"] and a suffix, and appending any
    ["#"]-suffix to the control key gives a light key with the same control
    key, so lights that differ only after the ["#"] read and write the same
    device control. *)
Theorem init_kind (device_id model light : string) (d : LightDescription)
    (entity : PhilipsLight) :
  __init__ (Some device_id) model light d = Ok entity ->
  (light = kind entity
   \/ exists suffix, light = (kind entity ++ String "#" suffix)%string)
  /\ forall (suffix : string) (d' : LightDescription) (entity' : PhilipsLight),
       __init__ (Some device_id) model (kind entity ++ String "#" suffix)%string d'
       = Ok entity' ->
       kind entity' = kind entity.
Proof.
  intros Hinit.
  assert (Hkind : forall l dd ent, __init__ (Some device_id) model l dd = Ok ent ->
                  kind ent = partition_head "#" l).
  { intros l dd ent H. unfold __init__ in H.
    destruct (d_dimmable dd) as [[|]|], (truthy (d_auto dd));
      injection H as <-; reflexivity. }
  rewrite (Hkind _ _ _ Hinit). split.
  - apply partition_head_split.
  - intros suffix d' entity' Hinit'.
    rewrite (Hkind _ _ _ Hinit'). apply partition_head_app.
Qed.

Lemma init_kind_witness :
  __init__ (Some "id") "AC3858" "D0312D#2" scenario_description = Ok scenario_light
  /\ ("D0312D#2" = kind scenario_light
      \/ exists suffix, "D0312D#2" = (kind scenario_light ++ String "#" suffix)%string)
  /\ forall (suffix : string) (d' : LightDescription) (entity' : PhilipsLight),
       __init__ (Some "id") "AC3858" (kind scenario_light ++ String "#" suffix)%string d'
       = Ok entity' ->
       kind entity' = kind scenario_light.
Proof.
  split; [reflexivity |].
  apply (init_kind "id" "AC3858" "D0312D#2" scenario_description scenario_light).
  reflexivity.
Defined.

(** ** What a constructed entity advertises *)

(** X6: a constructed entity advertises the effect list [["auto"]], and
    starts with the cached effect "off", exactly when its descriptor says
    [dimmable: True] and has a non-zero auto value; otherwise it has no
    effect list and no cached effect.  Its colour mode is brightness exactly
    when the descriptor says [dimmable: True], and on/off otherwise. *)
Theorem init_capabilities (device_id : option string) (model light : string)
    (d : LightDescription) (entity : PhilipsLight) :
  __init__ device_id model light d = Ok entity ->
  (d_dimmable d = Some true /\ truthy (d_auto d) = true ->
   _attr_effect_list entity = Some [SWITCH_AUTO]
   /\ _attr_effect entity = Some EFFECT_OFF)
  /\ (~ (d_dimmable d = Some true /\ truthy (d_auto d) = true) ->
      _attr_effect_list entity = None /\ _attr_effect entity = None)
  /\ (_attr_color_mode entity = BRIGHTNESS <-> d_dimmable d = Some true)
  /\ (_attr_color_mode entity = ONOFF <-> d_dimmable d <> Some true).
Proof.
  unfold __init__. intros Hinit.
  destruct (d_dimmable d) as [[|]|], (truthy (d_auto d)) eqn:Hauto, device_id;
    try discriminate Hinit; injection Hinit as <-; cbn;
    repeat split; try tauto; try congruence; intros; try discriminate;
    try (exfalso; tauto); try (exfalso; intuition congruence).
Qed.

Lemma init_capabilities_witness :
  __init__ (Some "id") "AC3858" "D0312D#2" scenario_description = Ok scenario_light
  /\ (d_dimmable scenario_description = Some true
      /\ truthy (d_auto scenario_description) = true ->
      _attr_effect_list scenario_light = Some [SWITCH_AUTO]
      /\ _attr_effect scenario_light = Some EFFECT_OFF)
  /\ (~ (d_dimmable scenario_description = Some true
         /\ truthy (d_auto scenario_description) = true) ->
      _attr_effect_list scenario_light = None /\ _attr_effect scenario_light = None)
  /\ (_attr_color_mode scenario_light = BRIGHTNESS
      <-> d_dimmable scenario_description = Some true)
  /\ (_attr_color_mode scenario_light = ONOFF
      <-> d_dimmable scenario_description <> Some true).
Proof.
  split; [reflexivity |].
  apply (init_capabilities (Some "id") "AC3858" "D0312D#2" scenario_description
           scenario_light).
  reflexivity.
Defined.

(** ** Errors and effects of the reads *)

(** X7: [is_on] never changes anything; it raises [TypeError] exactly when
    the snapshot has no value under the entity's key or the descriptor has
    no off value, and it raises nothing else. *)
Theorem is_on_type_error (h : Heap) :
  snd (is_on h) = h
  /\ (fst (is_on h) = Raise TypeError
      <-> _device_status h !! kind (self h) = None \/ _off (self h) = None)
  /\ (forall e, fst (is_on h) = Raise e -> e = TypeError).
Proof.
  unfold is_on. py_unfold.
  destruct (_device_status h !! kind (self h)) as [v |],
    (_off (self h)) as [off |]; cbn;
    repeat split; try tauto; intros; try discriminate; try congruence;
    try (right; reflexivity); try (left; reflexivity);
    intuition discriminate.
Qed.

(** What a brightness read can do to the heap: nothing, or set the cached
    effect to "auto" on seeing the auto value. *)
Lemma brightness_cases (h : Heap) :
  snd (brightness h) = h
  \/ (brightness h = (Ok None, heap_set_effect (Some SWITCH_AUTO) h)
      /\ _dimmable (self h) = true
      /\ truthy (_auto (self h)) = true /\ truthy (_medium (self h)) = true
      /\ _attr_effect (self h) <> Some SWITCH_AUTO
      /\ _device_status h !! kind (self h) = _auto (self h)).
Proof.
  unfold brightness. py_unfold. unfold py_round_div.
  destruct (_dimmable (self h)); [| left; reflexivity].
  destruct (truthy (_auto (self h))) eqn:Hauto; cbn [andb].
  - destruct (decide (_attr_effect (self h) = Some SWITCH_AUTO)) as [He | He].
    + rewrite bool_decide_eq_true_2 by exact He. left. reflexivity.
    + rewrite bool_decide_eq_false_2 by exact He.
      destruct (_device_status h !! kind (self h)) as [raw |] eqn:Hraw;
        [| left; reflexivity].
      destruct (truthy (_medium (self h))) eqn:Hmed.
      * destruct (_auto (self h)) as [a |] eqn:Ha; [| discriminate Hauto].
        destruct (Z.eqb_spec raw a) as [-> | Hne].
        -- right. repeat split; auto.
        -- left. repeat case_match; simplify_eq; reflexivity.
      * left. repeat case_match; simplify_eq; reflexivity.
  - destruct (_device_status h !! kind (self h)) as [raw |] eqn:Hraw;
      [| left; reflexivity].
    left. repeat case_match; simplify_eq; reflexivity.
Qed.

(** X8: a brightness read never writes to the client and never touches the
    snapshot or the descriptor fields.  It changes the heap in one case
    only: on a dimmable light with non-zero auto and medium values whose
    cached effect is not "auto", when the snapshot shows the auto value; it
    then sets the cached effect to "auto" and returns [None]. *)
Theorem brightness_frame (h : Heap) :
  client (snd (brightness h)) = client h
  /\ _device_status (snd (brightness h)) = _device_status h
  /\ (exists e, self (snd (brightness h)) = with_effect e (self h))
  /\ (snd (brightness h) <> h ->
      brightness h = (Ok None, heap_set_effect (Some SWITCH_AUTO) h)
      /\ _dimmable (self h) = true
      /\ truthy (_auto (self h)) = true /\ truthy (_medium (self h)) = true
      /\ _attr_effect (self h) <> Some SWITCH_AUTO
      /\ _device_status h !! kind (self h) = _auto (self h)).
Proof.
  destruct (brightness_cases h) as [Hsame | Hauto].
  - rewrite Hsame.
    split; [reflexivity |]. split; [reflexivity |]. split.
    + exists (_attr_effect (self h)). destruct (self h). reflexivity.
    + intros Hne. contradiction.
  - destruct Hauto as (Heq & Hdim & Hauto & Hmed & Heff & Hraw).
    rewrite Heq. cbn [snd].
    split; [reflexivity |]. split; [reflexivity |]. split.
    + exists (Some SWITCH_AUTO). reflexivity.
    + intros _. repeat split; assumption.
Qed.




(** ** More on rounding *)

(** An exact quotient is its own rounding. *)
Lemma round_half_even_exact (d k : Z) : d <> 0 -> round_half_even (d * k) d = k.
Proof.
  intros Hd. pose proof (round_half_even_near (d * k) d Hd) as Hnear.
  assert (Hfac : d * round_half_even (d * k) d - d * k
                 = d * (round_half_even (d * k) d - k)) by ring.
  rewrite Hfac, Z.abs_mul in Hnear. nia.
Qed.

(** Rounding by a positive divisor is monotone in the numerator. *)
Lemma round_half_even_mono (n1 n2 d : Z) :
  0 < d -> n1 <= n2 -> round_half_even n1 d <= round_half_even n2 d.
Proof.
  intros Hd Hle.
  destruct (Z.eq_dec n1 n2) as [-> | Hne]; [lia |].
  pose proof (round_half_even_near n1 d ltac:(lia)) as H1.
  pose proof (round_half_even_near n2 d ltac:(lia)) as H2.
  nia.
Qed.

(** ** The range and order of brightness levels *)

(** X11: on a dimmable light with a positive on value, a snapshot value
    between 0 and the on value never makes the brightness read fail, and
    the level it returns, if any, lies between 0 and 255, whatever medium,
    auto and cached effect are. *)
Theorem brightness_in_range (h : Heap) (on raw : Z) :
  _dimmable (self h) = true ->
  _on (self h) = Some on ->
  _device_status h !! kind (self h) = Some raw ->
  0 < on ->
  0 <= raw <= on ->
  exists (r : option Z) (h' : Heap),
    brightness h = (Ok r, h') /\ forall v, r = Some v -> 0 <= v <= 255.
Proof.
  intros Hdim Hon Hraw Hpos Hrange.
  assert (Hlin : 0 <= round_half_even (255 * raw) on <= 255).
  { split.
    - rewrite <- (round_half_even_exact on 0) at 1 by lia.
      apply round_half_even_mono; lia.
    - rewrite <- (round_half_even_exact on 255) at 2 by lia.
      apply round_half_even_mono; lia. }
  unfold brightness. py_unfold. unfold py_round_div.
  rewrite Hdim, Hon.
  destruct (truthy (_auto (self h)) && bool_decide (_attr_effect (self h) = Some SWITCH_AUTO)).
  - exists None, h. split; [reflexivity | intros v Hv; discriminate Hv].
  - rewrite Hraw.
    replace (on =? 0) with false by (symmetry; apply Z.eqb_neq; lia).
    repeat case_match; simplify_eq;
      eexists _, _; (split; [reflexivity |]); intros v Hv; simplify_eq; lia.
Qed.

Lemma brightness_in_range_witness :
  _dimmable (self (scenario_heap 1)) = true
  /\ _on (self (scenario_heap 1)) = Some 2
  /\ _device_status (scenario_heap 1) !! kind (self (scenario_heap 1)) = Some 1
  /\ 0 < 2 /\ 0 <= 1 <= 2
  /\ exists (r : option Z) (h' : Heap),
       brightness (scenario_heap 1) = (Ok r, h')
       /\ forall v, r = Some v -> 0 <= v <= 255.
Proof.
  split; [reflexivity |]. split; [reflexivity |]. split; [reflexivity |].
  split; [lia |]. split; [lia |].
  apply (brightness_in_range (scenario_heap 1) 2 1); first [reflexivity | lia].
Defined.



(** ** What a turn-on writes *)

(** A turn-on without effect argument, case by case. *)
Lemma turn_on_plain (h : Heap) (level : option Z) :
  async_turn_on {| kw_brightness := level; kw_effect := None |} h
  = if _dimmable (self h) then
      match level with
      | Some b =>
          if truthy (_medium (self h)) && (b <? 255)
          then (Ok tt, heap_send (kind (self h)) (_medium (self h)) h)
          else match _on (self h) with
               | Some on =>
                   (Ok tt, heap_send (kind (self h))
                             (Some (round_half_even (on * b) 255)) h)
               | None => (Raise TypeError, h)
               end
      | None =>
          match _on (self h) with
          | Some on => (Ok tt, heap_send (kind (self h)) (Some on) h)
          | None => (Raise TypeError, h)
          end
      end
    else (Ok tt, heap_send (kind (self h)) (_on (self h)) h).
Proof.
  unfold async_turn_on. py_unfold. unfold py_round_div.
  cbn [kw_effect kw_brightness].
  destruct (_dimmable (self h)); [| reflexivity].
  destruct level as [b |].
  - destruct (truthy (_medium (self h)) && (b <? 255)); [reflexivity |].
    destruct (_on (self h)); reflexivity.
  - destruct (_on (self h)); reflexivity.
Qed.

(** A turn-on with an effect argument, case by case. *)
Lemma turn_on_effect (h : Heap) (level : option Z) (effect : string) :
  async_turn_on {| kw_brightness := level; kw_effect := Some effect |} h
  = if String.eqb effect SWITCH_AUTO
    then (Ok tt, heap_send (kind (self h)) (_auto (self h))
                   (heap_set_effect (Some effect) h))
    else (Raise UnboundLocalError, heap_set_effect (Some effect) h).
Proof.
  unfold async_turn_on. py_unfold. cbn [kw_effect].
  destruct (String.eqb effect SWITCH_AUTO); reflexivity.
Qed.




(** X15: on a dimmable light with a non-zero medium value, every
    brightness request below 255 hands the client the medium value; and
    with the snapshot showing the medium value the brightness read returns
    128, provided the auto value is absent or zero, or else differs from
    the medium value while the cached effect is not "auto". *)
Theorem turn_on_medium (h : Heap) (medium level : Z) :
  _dimmable (self h) = true ->
  _medium (self h) = Some medium ->
  medium <> 0 ->
  level < 255 ->
  async_turn_on {| kw_brightness := Some level; kw_effect := None |} h
  = (Ok tt, heap_send (kind (self h)) (Some medium) h)
  /\ forall h' : Heap,
       self h' = self h ->
       _device_status h' !! kind (self h) = Some medium ->
       truthy (_auto (self h)) = false
       \/ (_attr_effect (self h) <> Some SWITCH_AUTO /\ _auto (self h) <> Some medium) ->
       brightness h' = (Ok (Some 128), h').
Proof.
  intros Hdim Hmed Hnz Hlt. split.
  - rewrite turn_on_plain, Hdim, Hmed, truthy_nonzero by exact Hnz.
    replace (level <? 255) with true by (symmetry; apply Z.ltb_lt; exact Hlt).
    reflexivity.
  - intros h' Hself Hraw Hauto.
    unfold brightness. py_unfold. rewrite Hself, Hdim, Hmed.
    rewrite truthy_nonzero by exact Hnz.
    destruct Hauto as [Hauto | [Heff Hauto]].
    + rewrite Hauto. cbn [andb]. rewrite Hraw, Z.eqb_refl. reflexivity.
    + rewrite (effect_is_auto_false _ Heff), andb_false_r, Hraw.
      destruct (_auto (self h)) as [a |]; cbn [truthy andb].
      * destruct (negb (a =? 0)).
        -- replace (medium =? a) with false
             by (symmetry; apply Z.eqb_neq; congruence).
           rewrite Z.eqb_refl. reflexivity.
        -- rewrite Z.eqb_refl. reflexivity.
      * rewrite Z.eqb_refl. reflexivity.
Qed.

Lemma turn_on_medium_witness :
  _dimmable (self (scenario_heap 2)) = true
  /\ _medium (self (scenario_heap 2)) = Some 1
  /\ 1 <> 0 /\ 10 < 255
  /\ async_turn_on {| kw_brightness := Some 10; kw_effect := None |} (scenario_heap 2)
     = (Ok tt, heap_send (kind (self (scenario_heap 2))) (Some 1) (scenario_heap 2)).
Proof.
  split; [reflexivity |]. split; [reflexivity |]. split; [lia |]. split; [lia |].
  exact (proj1 (turn_on_medium (scenario_heap 2) 1 10 eq_refl eq_refl
                  ltac:(lia) ltac:(lia))).
Defined.



(** ** Turning off and reading back *)

(** X18: on a dimmable light with off value 0 and a non-zero on value,
    whatever medium, auto and the cached effect were: turning off hands the
    client 0 and sets the cached effect to "off"; once the snapshot shows
    that 0, [is_on] is false and the brightness read returns 0 (it is no
    longer hidden, even if the cached effect had been "auto"). *)
Theorem turn_off_then_read (h : Heap) (on : Z) (status : gmap string Z) :
  _dimmable (self h) = true ->
  _off (self h) = Some 0 ->
  _on (self h) = Some on ->
  on <> 0 ->
  status !! kind (self h) = Some 0 ->
  run [ TurnOff; Refresh status; GetIsOn; GetBrightness ] h
  = ([ Done (Ok tt); Refreshed; IsOn (Ok false); Level (Ok (Some 0)) ],
     refresh status
       (heap_send (kind (self h)) (Some 0) (heap_set_effect (Some EFFECT_OFF) h))).
Proof.
  intros Hdim Hoff Hon Hnz Hraw.
  cbn [run perform]. rewrite turn_off_sends_off, Hoff.
  set (h' := refresh status _).
  assert (His : is_on h' = (Ok false, h')).
  { unfold is_on. py_unfold. subst h'. cbn. rewrite Hraw, Hoff. reflexivity. }
  assert (Hbr : brightness h' = (Ok (Some 0), h')).
  { pose proof (round_half_even_exact on 0 Hnz) as Hr. rewrite Z.mul_0_r in Hr.
    unfold brightness. py_unfold. unfold py_round_div. subst h'.
    cbn [self _device_status refresh heap_send heap_set_effect with_effect
         _dimmable _auto _medium _on _attr_effect kind].
    rewrite Hdim, (effect_is_auto_false (Some EFFECT_OFF)) by discriminate.
    rewrite andb_false_r. cbv beta.
    cbn [self _device_status refresh heap_send heap_set_effect].
    rewrite Hraw, Hon.
    replace (on =? 0) with false by (symmetry; apply Z.eqb_neq; exact Hnz).
    destruct (_auto (self h)) as [a |], (_medium (self h)) as [m |];
      cbn [truthy andb];
      try destruct (Z.eqb_spec a 0); try destruct (Z.eqb_spec m 0);
      cbn [negb andb]; subst;
      try (replace (0 =? a) with false by (symmetry; apply Z.eqb_neq; lia));
      try (replace (0 =? m) with false by (symmetry; apply Z.eqb_neq; lia));
      change (255 * 0) with 0; rewrite Hr; reflexivity. }
  rewrite His, Hbr. reflexivity.
Qed.

Lemma turn_off_then_read_witness :
  _dimmable (self (heap_set_effect (Some SWITCH_AUTO) (scenario_heap 3))) = true
  /\ 2 <> 0
  /\ run [ TurnOff; Refresh {[ "D0312D" := 0 ]}; GetIsOn; GetBrightness ]
       (heap_set_effect (Some SWITCH_AUTO) (scenario_heap 3))
     = ([ Done (Ok tt); Refreshed; IsOn (Ok false); Level (Ok (Some 0)) ],
        refresh {[ "D0312D" := 0 ]}
          (heap_send "D0312D" (Some 0)
             (heap_set_effect (Some EFFECT_OFF)
                (heap_set_effect (Some SWITCH_AUTO) (scenario_heap 3))))).
Proof.
  split; [reflexivity |]. split; [lia |].
  apply (turn_off_then_read (heap_set_effect (Some SWITCH_AUTO) (scenario_heap 3)) 2
           {[ "D0312D" := 0 ]}); first [reflexivity | lia].
Defined.

(** ** Runs of calls *)

(** What a turn-on does to the entity itself. *)
Lemma turn_on_self (h : Heap) (kwargs : Kwargs) :
  self (snd (async_turn_on kwargs h))
  = match kw_effect kwargs with
    | Some effect => with_effect (Some effect) (self h)
    | None => self h
    end.
Proof.
  destruct kwargs as [level [effect |]]; cbn [kw_effect].
  - rewrite turn_on_effect. destruct (String.eqb effect SWITCH_AUTO); reflexivity.
  - rewrite turn_on_plain.
    repeat case_match; reflexivity.
Qed.

(** While the cached effect of a dimmable light with a non-zero auto value
    is "auto", the brightness read returns [None] without looking at the
    snapshot. *)
Lemma brightness_hidden (h : Heap) :
  _dimmable (self h) = true ->
  truthy (_auto (self h)) = true ->
  _attr_effect (self h) = Some SWITCH_AUTO ->
  brightness h = (Ok None, h).
Proof.
  intros Hdim Hauto Heff. unfold brightness. py_unfold.
  rewrite Hdim, Hauto, Heff. reflexivity.
Qed.

(** X9: on a dimmable light with a non-zero auto value whose cached effect
    is "auto", brightness stays hidden until the light is turned off: over
    any run of snapshot refreshes, reads and turn-ons (with a brightness,
    with the effect "auto", or with neither), every brightness read returns
    [None], whatever the snapshot shows, and the cached effect is still
    "auto" at the end.  In particular a turn-on with a brightness does not
    leave the auto effect. *)
Theorem auto_hides_brightness (ops : list op) (h : Heap) :
  _dimmable (self h) = true ->
  truthy (_auto (self h)) = true ->
  _attr_effect (self h) = Some SWITCH_AUTO ->
  Forall keeps_auto ops ->
  Forall level_hidden (fst (run ops h))
  /\ _attr_effect (self (snd (run ops h))) = Some SWITCH_AUTO.
Proof.
  intros Hdim Hauto Heff Hops. revert h Hdim Hauto Heff.
  induction Hops as [| o rest Ho _ IH]; intros h Hdim Hauto Heff.
  - split; [constructor | exact Heff].
  - cbn [run].
    assert (Hstep : level_hidden (fst (perform o h))
                    /\ _dimmable (self (snd (perform o h))) = true
                    /\ truthy (_auto (self (snd (perform o h)))) = true
                    /\ _attr_effect (self (snd (perform o h))) = Some SWITCH_AUTO).
    { destruct o as [status | | | kwargs |]; cbn [perform].
      - repeat split; assumption.
      - pose proof (is_on_heap h) as Hk. destruct (is_on h) as [r k].
        cbn [snd fst] in *. subst k. repeat split; assumption.
      - rewrite (brightness_hidden h Hdim Hauto Heff). cbn [fst snd].
        repeat split; assumption.
      - pose proof (turn_on_self h kwargs) as Hk.
        destruct (async_turn_on kwargs h) as [r k]. cbn [fst snd] in *.
        rewrite Hk. cbn [keeps_auto] in Ho.
        destruct Ho as [-> | ->]; repeat split; assumption.
      - contradiction Ho. }
    destruct (perform o h) as [x h'] eqn:Hperf. cbn [fst snd] in Hstep.
    destruct Hstep as (Hx & Hdim' & Hauto' & Heff').
    specialize (IH h' Hdim' Hauto' Heff').
    destruct (run rest h') as [xs h''] eqn:Hrun. cbn [fst snd] in *.
    split; [constructor; [exact Hx | exact (proj1 IH)] | exact (proj2 IH)].
Qed.

Lemma auto_hides_brightness_witness :
  _dimmable (self (heap_set_effect (Some SWITCH_AUTO) (scenario_heap 3))) = true
  /\ Forall keeps_auto (drop 2 scenario_ops)
  /\ Forall level_hidden
       (fst (run (drop 2 scenario_ops)
               (heap_set_effect (Some SWITCH_AUTO) (scenario_heap 3))))
  /\ _attr_effect
       (self (snd (run (drop 2 scenario_ops)
                     (heap_set_effect (Some SWITCH_AUTO) (scenario_heap 3)))))
     = Some SWITCH_AUTO.
Proof.
  assert (Hops : Forall keeps_auto (drop 2 scenario_ops)).
  { repeat (constructor; [cbn; auto |]). constructor. }
  split; [reflexivity |]. split; [exact Hops |].
  apply (auto_hides_brightness (drop 2 scenario_ops)
           (heap_set_effect (Some SWITCH_AUTO) (scenario_heap 3)));
    [reflexivity | reflexivity | reflexivity | exact Hops].
Defined.

Lemma run_two_valued_witness :
  Forall selects_auto_only (scenario_ops ++ [TurnOff])
  /\ two_valued (fresh scenario_light)
  /\ two_valued (snd (run (scenario_ops ++ [TurnOff]) (fresh scenario_light))).
Proof.
  assert (Hops : Forall selects_auto_only (scenario_ops ++ [TurnOff])).
  { repeat (constructor; [cbn; auto |]). constructor. }
  assert (Hh : two_valued (fresh scenario_light)) by (left; reflexivity).
  split; [exact Hops |]. split; [exact Hh |].
  exact (run_two_valued (scenario_ops ++ [TurnOff]) (fresh scenario_light) Hops Hh).
Defined.

(** What one call does to the client and the entity. *)
Lemma perform_frame (o : op) (h : Heap) :
  (exists e, self (snd (perform o h)) = with_effect e (self h))
  /\ (client (snd (perform o h)) = client h
      \/ (exists v, client (snd (perform o h))
                    = (client h ++ [(kind (self h), v)])%list)
         /\ match o with TurnOn _ | TurnOff => True | _ => False end).
Proof.
  assert (Hself : exists e, self h = with_effect e (self h)).
  { exists (_attr_effect (self h)). destruct (self h). reflexivity. }
  destruct o as [status | | | kwargs |]; cbn [perform].
  - split; [exact Hself | left; reflexivity].
  - pose proof (is_on_heap h) as Hk. destruct (is_on h) as [r k].
    cbn [snd] in *. subst k. split; [exact Hself | left; reflexivity].
  - destruct (brightness_cases h) as [Hk | [Hk _]];
      destruct (brightness h) as [r k]; cbn [snd] in *.
    + subst k. split; [exact Hself | left; reflexivity].
    + injection Hk as _ ->. split; [eexists; reflexivity | left; reflexivity].
  - destruct kwargs as [level [effect |]].
    + rewrite turn_on_effect. destruct (String.eqb effect SWITCH_AUTO); cbn [snd].
      * split; [eexists; reflexivity |]. right. split; [eexists; reflexivity | exact I].
      * split; [eexists; reflexivity | left; reflexivity].
    + rewrite turn_on_plain.
      destruct (_dimmable (self h));
        [ destruct level as [b |];
          [ destruct (truthy (_medium (self h)) && (b <? 255));
            [| destruct (_on (self h))]
          | destruct (_on (self h)) ]
        | ];
        cbn [snd]; (split; [exact Hself |]);
        first [left; reflexivity | right; split; [eexists; reflexivity | exact I]].
  - rewrite turn_off_sends_off. cbn [snd].
    split; [eexists; reflexivity |]. right. split; [eexists; reflexivity | exact I].
Qed.

(** X19: over any run of calls the descriptor fields and the control key
    of the entity never change (only the cached effect may), and the client
    log only grows: every value handed to the client is added at the end,
    under the entity's own key, and there are at most as many of them as
    there are calls in the run. *)
Theorem run_frame (ops : list op) (h : Heap) :
  (exists e, self (snd (run ops h)) = with_effect e (self h))
  /\ exists sent : list (string * option Z),
       client (snd (run ops h)) = (client h ++ sent)%list
       /\ Forall (fun entry => fst entry = kind (self h)) sent
       /\ (length sent <= length ops)%nat.
Proof.
  revert h. induction ops as [| o rest IH]; intros h.
  - cbn [run snd]. split.
    + exists (_attr_effect (self h)). destruct (self h). reflexivity.
    + exists []. rewrite app_nil_r.
      split; [reflexivity | split; [constructor | reflexivity]].
  - cbn [run].
    destruct (perform_frame o h) as [[e He] Hclient].
    destruct (perform o h) as [x h']. cbn [snd] in He, Hclient.
    destruct (IH h') as [[e' He'] (sent & Hsent & Hkeys & Hlen)].
    destruct (run rest h') as [xs h'']. cbn [snd] in *.
    assert (Hkind : kind (self h') = kind (self h)) by (rewrite He; reflexivity).
    split.
    + exists e'. rewrite He', He. reflexivity.
    + rewrite Hkind in Hkeys.
      destruct Hclient as [Hc | [[v Hc] _]]; rewrite Hc in Hsent.
      * exists sent. split; [exact Hsent | split; [exact Hkeys | cbn; lia]].
      * exists ((kind (self h), v) :: sent). split.
        -- rewrite Hsent, <- app_assoc. reflexivity.
        -- split; [constructor; [reflexivity | exact Hkeys] | cbn; lia].
Qed.
